(** * The pixel-diff vision service ([src/models/pixel_diff.py])

    A shallow embedding of the [DiffVision] class: the rolling memory of
    reference images, the pairwise difference metric with its numpy
    broadcasting, the decision loop of [get_detections], and the custom
    command that clears the memory.

    Numbers.  numpy's [float64] values are represented by exact rationals
    with one extra value for NaN.  The only float arithmetic in the class is
    the mean of absolute differences of 8-bit samples followed by one
    division by 255; the sum of such integers is exact in binary64, and the
    two remaining roundings are monotone, so order and equality facts of the
    rational model are those of the float computation. *)

From stdpp Require Import base gmap strings list.
From Stdlib Require Import ZArith QArith Lia.

Local Open Scope Z_scope.

(** ** Python values, exceptions and floats *)

Module Py.

Inductive exn : Type :=
| RuntimeError          (* "Input camera not set" *)
| ValueError            (* failed unpacking, failed broadcast, bad config *)
| TypeError             (* unsupported operand types *)
| IndexError            (* pop from empty list *)
| NotImplementedError
| UnidentifiedImageError. (* PIL cannot decode the buffer *)

Inductive result (A : Type) : Type :=
| Ok (a : A)
| Raise (e : exn).
Arguments Ok {A} a.
Arguments Raise {A} e.

(** A Python [float]. *)
Inductive float : Type :=
| NaN
| Fl (q : Q).

Definition Qlt_bool (a b : Q) : bool := negb (Qle_bool b a).

(** [a < b]; every comparison with NaN is false. *)
Definition float_lt (a b : float) : bool :=
  match a, b with
  | Fl x, Fl y => Qlt_bool x y
  | _, _ => false
  end.

(** [a <= b]. *)
Definition float_le (a b : float) : bool :=
  match a, b with
  | Fl x, Fl y => Qle_bool x y
  | _, _ => false
  end.

(** [a / b] for a finite non-zero constant divisor [b]. *)
Definition float_div (a : float) (b : Q) : float :=
  match a with
  | Fl x => Fl (x / b)
  | NaN => NaN
  end.

(** The dynamically typed values that occur in configuration and command
    dictionaries. *)
Inductive value : Type :=
| PyNone
| PyBool (b : bool)
| PyInt (z : Z)
| PyFloat (f : float)
| PyStr (s : string).

(** [isinstance(v, int)]: [bool] is a subclass of [int]. *)
Definition is_int (v : value) : option Z :=
  match v with
  | PyInt z => Some z
  | PyBool b => Some (if b then 1 else 0)
  | _ => None
  end.

(** [isinstance(v, (int, float))], with the value as a float. *)
Definition is_number (v : value) : option float :=
  match v with
  | PyInt z => Some (Fl (inject_Z z))
  | PyBool b => Some (Fl (if b then 1 else 0)%Q)
  | PyFloat f => Some f
  | _ => None
  end.

Definition is_str (v : value) : option string :=
  match v with
  | PyStr s => Some s
  | _ => None
  end.

(** The right operand of the capacity test in [get_detections]: whatever
    object the attribute holds, seen by [>=] with an [int] on the left. *)
Inductive operand (A : Type) : Type :=
| OInt (z : Z)
| OList (l : list A).
Arguments OInt {A} z.
Arguments OList {A} l.

(** [n >= o] for an [int] [n].  [int.__ge__] answers [NotImplemented] for a
    list, and so does the reflected [list.__le__] for an int: Python 3
    raises [TypeError]. *)
Definition int_ge {A : Type} (n : Z) (o : operand A) : result bool :=
  match o with
  | OInt m => Ok (m <=? n)
  | OList _ => Raise TypeError
  end.

End Py.
Export Py.

(** ** numpy arrays of 8-bit samples *)

Module Np.

(** An array in row-major order: [shape] is [(h, w)] for a grey image and
    [(h, w, c)] for an image with [c] channels. *)
Record ndarray : Type := mk_ndarray { shape : list nat; data : list Z }.

Definition size_of (sh : list nat) : nat := fold_right Nat.mul 1%nat sh.

Definition is_uint8 (z : Z) : bool := (0 <=? z) && (z <=? 255).

(** What [np.array(Image.open(...))] yields for an 8-bit image: two or
    three positive dimensions, and as many samples as the shape asks. *)
Definition is_raster (a : ndarray) : bool :=
  match shape a with
  | [_; _] | [_; _; _] =>
      forallb (fun d => (0 <? d)%nat) (shape a)
      && (length (data a) =? size_of (shape a))%nat
      && forallb is_uint8 (data a)
  | _ => false
  end.

(** *** Broadcasting *)

(** Shapes are aligned on the right; the shorter is padded with ones. *)
Definition pad_shape (n : nat) (sh : list nat) : list nat :=
  repeat 1%nat (n - length sh) ++ sh.

Definition broadcast_dim (a b : nat) : option nat :=
  if (a =? b)%nat then Some a
  else if (a =? 1)%nat then Some b
  else if (b =? 1)%nat then Some a
  else None.

Fixpoint broadcast_dims (s1 s2 : list nat) : option (list nat) :=
  match s1, s2 with
  | [], [] => Some []
  | a :: s1', b :: s2' =>
      match broadcast_dim a b, broadcast_dims s1' s2' with
      | Some d, Some ds => Some (d :: ds)
      | _, _ => None
      end
  | _, _ => None
  end.

Definition broadcast_shapes (s1 s2 : list nat) : option (list nat) :=
  let n := Nat.max (length s1) (length s2) in
  broadcast_dims (pad_shape n s1) (pad_shape n s2).

(** [n] consecutive blocks of [k] elements. *)
Fixpoint chunks {A : Type} (n k : nat) (l : list A) : list (list A) :=
  match n with
  | O => []
  | S n' => take k l :: chunks n' k (drop k l)
  end.

(** The samples of an array of shape [src] seen at shape [tgt] (same
    rank): an axis of length one is repeated, any other is kept. *)
Fixpoint broadcast_to (src tgt : list nat) (d : list Z) : list Z :=
  match src, tgt with
  | s :: src', t :: tgt' =>
      let rows := map (broadcast_to src' tgt') (chunks s (size_of src') d) in
      if (s =? t)%nat then concat rows else concat (repeat (concat rows) t)
  | _, _ => d
  end.

(** [np.abs(a.astype(float) - b.astype(float))].  The differences of 8-bit
    samples are integers, kept in [Z]. *)
Definition abs_diff (a b : ndarray) : result ndarray :=
  match broadcast_shapes (shape a) (shape b) with
  | None => Raise ValueError
  | Some sh =>
      let n := length sh in
      let xs := broadcast_to (pad_shape n (shape a)) sh (data a) in
      let ys := broadcast_to (pad_shape n (shape b)) sh (data b) in
      Ok (mk_ndarray sh (zip_with (fun x y => Z.abs (x - y)) xs ys))
  end.

Definition sum (l : list Z) : Z := fold_right Z.add 0 l.

(** [np.mean]: NaN on an empty array. *)
Definition mean (a : ndarray) : float :=
  match data a with
  | [] => NaN
  | _ => Fl (inject_Z (sum (data a)) / inject_Z (Z.of_nat (length (data a))))
  end.

End Np.
Export Np.

(** ** The service *)

(** [ViamImage]: the encoded bytes, of which only [data] is read. *)
Record ViamImage : Type := { image_data : list Z; mime_type : string }.

(** [ResourceName(namespace, type, subtype, name)]. *)
Definition ResourceName : Type := (string * string * string * string)%type.

(** A resource handed over by the host, and the camera made of it. *)
Record ResourceBase : Type := { resource_name : string }.
Record Camera : Type := { camera_of : ResourceBase }.

(** A protobuf [Value] of [config.attributes.fields]. *)
Inductive pb_value : Type :=
| PbNull
| PbNumber (x : float)
| PbString (s : string)
| PbBool (b : bool).

(** Reading the wrong member of the protobuf [oneof] gives its default. *)
Definition string_value (v : pb_value) : string :=
  match v with PbString s => s | _ => "" end.
Definition number_value (v : pb_value) : float :=
  match v with PbNumber x => x | _ => Fl 0 end.

Record ComponentConfig : Type :=
  { config_name : string; fields : gmap string pb_value }.

(** [fields[k]]: a protobuf map yields a default message for a missing key. *)
Definition get_field (config : ComponentConfig) (k : string) : pb_value :=
  default PbNull (fields config !! k).

Record detection : Type := { confidence : Q; class_name : string }.

(** The instance attributes set by [__init__]. *)
Record DiffVision : Type := mk_DiffVision
  { name : string;
    image_memories : list ndarray;
    required_diff : float;
    input_camera : option Camera }.

(** What the methods pass to [self.logger.info]. *)
Inductive event : Type :=
| StoringFirst
| Difference (i : nat) (diff : float)
| TooSimilar (i : nat) (diff required : float)
| RemovedOldest
| Storing (required : float)
| NotDifferent
| GeometriesNotImplemented.

(** *** Methods as state transformers

    A method body runs on the instance, may raise, and logs; an exception
    keeps whatever the body had already written to the instance. *)

Definition M (A : Type) : Type := DiffVision -> result A * DiffVision * list event.

Definition ret {A : Type} (a : A) : M A := fun s => (Ok a, s, []).

Definition raise {A : Type} (e : exn) : M A := fun s => (Raise e, s, []).

Definition bind {A B : Type} (m : M A) (k : A -> M B) : M B :=
  fun s =>
    match m s with
    | (Ok a, s', l) => let '(r, s'', l') := k a s' in (r, s'', l ++ l')
    | (Raise e, s', l) => (Raise e, s', l)
    end.

Definition lift {A : Type} (r : result A) : M A := fun s => (r, s, []).

Definition gets {A : Type} (f : DiffVision -> A) : M A := fun s => (Ok (f s), s, []).

Definition modify (f : DiffVision -> DiffVision) : M unit := fun s => (Ok tt, f s, []).

Definition info (e : event) : M unit := fun s => (Ok tt, s, [e]).

Declare Scope py_scope.
Delimit Scope py_scope with py.
Notation "'let*' x ':=' m 'in' k" := (bind m (fun x => k))
  (at level 10, x name, m at level 100, k at level 200) : py_scope.
Notation "m ';;' k" := (bind m (fun _ => k))
  (at level 100, k at level 200, right associativity) : py_scope.

Definition set_image_memories (l : list ndarray) (s : DiffVision) : DiffVision :=
  mk_DiffVision (name s) l (required_diff s) (input_camera s).
Definition set_required_diff (x : float) (s : DiffVision) : DiffVision :=
  mk_DiffVision (name s) (image_memories s) x (input_camera s).
Definition set_input_camera (c : option Camera) (s : DiffVision) : DiffVision :=
  mk_DiffVision (name s) (image_memories s) (required_diff s) c.

(** [self.image_memories.append(x)] *)
Definition append (x : ndarray) : M unit :=
  modify (fun s => set_image_memories (image_memories s ++ [x]) s).

(** [self.image_memories.pop(0)] *)
Definition pop0 : M ndarray :=
  fun s =>
    match image_memories s with
    | [] => (Raise IndexError, s, [])
    | x :: l => (Ok x, set_image_memories l s, [])
    end.

(** [__init__] *)
Definition init (name : string) : DiffVision :=
  mk_DiffVision name [] (Fl (2 # 10)) None.

(** [validate_config] *)
Definition validate_config (config : gmap string value) : result (list string) :=
  match config !! "image_memories" with
  | None => Raise ValueError
  | Some m =>
      match is_int m with
      | None => Raise ValueError
      | Some n =>
          if n <? 1 then Raise ValueError else
          match config !! "input_camera" with
          | None => Raise ValueError
          | Some c =>
              match is_str c with
              | None => Raise ValueError
              | Some cam =>
                  match config !! "required_diff" with
                  | None => Ok [cam]
                  | Some r =>
                      match is_number r with
                      | None => Raise ValueError
                      | Some x =>
                          if float_le (Fl 0) x && float_le x (Fl 1)
                          then Ok [cam] else Raise ValueError
                      end
                  end
              end
          end
      end
  end.

(** [do_command] *)
Definition do_command (command : gmap string value) : M (gmap string string) :=
  (if decide (is_Some (command !! "targeted_memory_erasure")) then
     modify (set_image_memories []) ;;
     ret ({[ "status" := "success"; "message" := "All image memories cleared" ]})
   else
     ret ({[ "status" := "error"; "message" := "Unknown command" ]}))%py.

(** [get_object_point_clouds] and [get_geometries] *)
Definition get_object_point_clouds (camera_name : string) : M (list unit) :=
  raise NotImplementedError.
Definition get_geometries : M (list unit) :=
  (info GeometriesNotImplemented ;; raise NotImplementedError)%py.

(** *** Stand-ins for the libraries

    [Image.open] and [Image.resize] belong to PIL, [Camera.from_robot] to the
    host SDK; they are parameters of the engine below.  These executable
    instances serve to run the engine on concrete inputs. *)

Module Sample.

(** A raw container: height, width and channel count (0 for grey) in the
    first three bytes, then the samples.  Anything else is rejected. *)
Definition raw_decode (buf : list Z) : result ndarray :=
  match buf with
  | h :: w :: c :: px =>
      let sh := if c =? 0 then [Z.to_nat h; Z.to_nat w]
                else [Z.to_nat h; Z.to_nat w; Z.to_nat c] in
      let a := mk_ndarray sh px in
      if is_raster a then Ok a else Raise UnidentifiedImageError
  | _ => Raise UnidentifiedImageError
  end.

(** Resizing that fills the requested grid with the first sample. *)
Definition flat_resize (a : ndarray) (w h : nat) : result ndarray :=
  match shape a with
  | _ :: _ :: rest =>
      if ((0 <? w) && (0 <? h))%nat then
        let sh := h :: w :: rest in
        Ok (mk_ndarray sh (repeat (hd 0 (data a)) (size_of sh)))
      else Raise ValueError
  | _ => Raise TypeError
  end.

Definition attach (r : ResourceBase) : result Camera :=
  Ok {| camera_of := r |}.

(** A 1x1 grey image per sample value, and its encoding. *)
Definition grey (v : Z) : ndarray := mk_ndarray [1; 1]%nat [v].
Definition encoded (v : Z) : ViamImage :=
  {| image_data := [1; 1; 0; v]; mime_type := "image/raw" |}.

(** A buffer that is no image. *)
Definition garbage : ViamImage :=
  {| image_data := [7]; mime_type := "image/raw" |}.

(** A 4x4 image with three channels and a 2x2 grey image. *)
Definition rgb4 : ndarray := mk_ndarray [4; 4; 3]%nat (repeat 10 48).
Definition grey2 : ndarray := mk_ndarray [2; 2]%nat [1; 2; 3; 4].

(** A 2x2 and a 1x2 grey image. *)
Definition wide : ndarray := mk_ndarray [2; 2]%nat [0; 255; 255; 0].
Definition narrow : ndarray := mk_ndarray [1; 2]%nat [0; 0].

Definition camera : Camera := {| camera_of := {| resource_name := "cam" |} |}.

(** A configured instance holding the given memory. *)
Definition service (memories : list ndarray) : DiffVision :=
  mk_DiffVision "diff" memories (Fl (2 # 10)) (Some camera).

(** A configuration and the dependencies that satisfy it. *)
Definition attributes : gmap string value :=
  {[ "image_memories" := PyInt 2; "input_camera" := PyStr "cam" ]}.
Definition config : ComponentConfig :=
  {| config_name := "diff";
     fields := {[ "image_memories" := PbNumber (Fl 2);
                  "input_camera" := PbString "cam" ]} |}.
Definition dependencies : gmap ResourceName ResourceBase :=
  {[ ("rdk", "component", "camera", "cam") := {| resource_name := "cam" |} ]}.

Definition erase : gmap string value :=
  {[ "targeted_memory_erasure" := PyBool true ]}.

End Sample.



(** *** The engine, over the imaging library

    [decode buf] is [np.array(Image.open(io.BytesIO(buf)))],
    [resize a w h] is [np.array(Image.fromarray(a).resize((w, h)))] and
    [from_robot] is [Camera.from_robot]; each may raise. *)

Section Engine.

Variable decode : list Z -> result ndarray.
Variable resize : ndarray -> nat -> nat -> result ndarray.
Variable from_robot : ResourceBase -> result Camera.

(** [_calculate_image_diff] *)
Definition _calculate_image_diff (img1 img2 : ndarray) : result float :=
  let operands :=
    if bool_decide (shape img1 ≠ shape img2) then
      match shape img1, shape img2 with
      | h1 :: w1 :: _, h2 :: w2 :: _ =>
          if (h2 * w2 <? h1 * w1)%nat then
            match resize img1 w2 h2 with
            | Ok r => Ok (r, img2)
            | Raise e => Raise e
            end
          else
            match resize img2 w1 h1 with
            | Ok r => Ok (img1, r)
            | Raise e => Raise e
            end
      | _, _ => Raise ValueError
      end
    else Ok (img1, img2) in
  match operands with
  | Ok (a, b) =>
      match abs_diff a b with
      | Ok d => Ok (float_div (mean d) 255)
      | Raise e => Raise e
      end
  | Raise e => Raise e
  end.

(** The [for i, memory in enumerate(self.image_memories)] loop of
    [get_detections], from index [i] on; the result is [is_different]. *)
Fixpoint compare_memories (img_array : ndarray) (i : nat)
    (memories : list ndarray) : M bool :=
  match memories with
  | [] => ret true
  | memory :: rest =>
      (let* diff := lift (_calculate_image_diff img_array memory) in
       info (Difference i diff) ;;
       let* required := gets required_diff in
       if float_lt diff required then
         info (TooSimilar i diff required) ;;
         ret false
       else compare_memories img_array (S i) rest)%py
  end.

(** [get_detections] *)
Definition get_detections (image : ViamImage) : M (list detection) :=
  (let* camera := gets input_camera in
   match camera with
   | None => raise RuntimeError
   | Some _ =>
       let* img_array := lift (decode (image_data image)) in
       let* memories := gets image_memories in
       match memories with
       | [] =>
           append img_array ;;
           info StoringFirst ;;
           ret []
       | _ :: _ =>
           let* is_different := compare_memories img_array 0 memories in
           if is_different : bool then
             let* n := gets (fun s => Z.of_nat (length (image_memories s))) in
             let* capacity := gets (fun s => OList (image_memories s)) in
             let* full := lift (int_ge n capacity) in
             (if full : bool then
                pop0 ;; info RemovedOldest
              else ret tt) ;;
             append img_array ;;
             let* required := gets required_diff in
             info (Storing required) ;;
             ret [ {| confidence := 1; class_name := "significant_change" |} ]
           else
             info NotDifferent ;;
             ret []
       end
   end)%py.

(** [get_classifications] *)
Definition get_classifications (image : ViamImage) (count : Z)
    : M (list detection) :=
  (let* detections := get_detections image in
   ret (map (fun d => {| confidence := confidence d;
                         class_name := class_name d |}) detections))%py.

(** [reconfigure] *)
Definition reconfigure (config : ComponentConfig)
    (dependencies : gmap ResourceName ResourceBase) : M unit :=
  (let input_camera_name := string_value (get_field config "input_camera") in
   let input_camera_resource_name : ResourceName :=
     ("rdk", "component", "camera", input_camera_name) in
   match dependencies !! input_camera_resource_name with
   | None => raise ValueError
   | Some dep =>
       let* camera := lift (from_robot dep) in
       modify (set_input_camera (Some camera)) ;;
       modify (set_image_memories []) ;;
       modify (set_required_diff
                 (match fields config !! "required_diff" with
                  | Some v => number_value v
                  | None => Fl (2 # 10)
                  end))
   end)%py.

(** [new_vision] *)
Definition new_vision (config : ComponentConfig)
    (dependencies : gmap ResourceName ResourceBase) : result DiffVision :=
  match reconfigure config dependencies (init (config_name config)) with
  | (Ok _, service, _) => Ok service
  | (Raise e, _, _) => Raise e
  end.

(** *** Calls from the host *)

Inductive call : Type :=
| Reconfigure (config : ComponentConfig)
    (dependencies : gmap ResourceName ResourceBase)
| GetDetections (image : ViamImage)
| GetClassifications (image : ViamImage) (count : Z)
| GetObjectPointClouds (camera_name : string)
| DoCommand (command : gmap string value)
| GetGeometries.

Inductive reply : Type :=
| Nothing
| Records (l : list detection)
| Clouds (l : list unit)
| Status (d : gmap string string).

Definition perform (c : call) : M reply :=
  (match c with
   | Reconfigure config dependencies =>
       reconfigure config dependencies ;; ret Nothing
   | GetDetections image =>
       let* l := get_detections image in ret (Records l)
   | GetClassifications image count =>
       let* l := get_classifications image count in ret (Records l)
   | GetObjectPointClouds camera_name =>
       let* l := get_object_point_clouds camera_name in ret (Clouds l)
   | DoCommand command =>
       let* d := do_command command in ret (Status d)
   | GetGeometries =>
       let* l := get_geometries in ret (Clouds l)
   end)%py.

(** The instance after a call, whether it returned or raised. *)
Definition after (c : call) (s : DiffVision) : DiffVision := (perform c s).1.2.

Definition returns (c : call) (s : DiffVision) : bool :=
  match (perform c s).1.1 with Ok _ => true | Raise _ => false end.

(** The instance after a sequence of calls, oldest first. *)
Definition run (cs : list call) (s : DiffVision) : DiffVision :=
  fold_left (fun s c => after c s) cs s.

(** Every call of the sequence returns normally. *)
Fixpoint all_return (cs : list call) (s : DiffVision) : bool :=
  match cs with
  | [] => true
  | c :: cs' => returns c s && all_return cs' (after c s)
  end.

(** What the caller sees of a detection list: [changed]. *)
Definition changed (detections : list detection) : bool :=
  match detections with [] => false | _ :: _ => true end.



(** *** Vocabulary of the statements *)

(** The comparison of [img] with [memory] yields a score that is not
    below [required]: the loop goes on. *)
Definition different_enough (required : float) (img memory : ndarray) : bool :=
  match _calculate_image_diff img memory with
  | Ok d => negb (float_lt d required)
  | Raise _ => false
  end.

(** The scores logged while [img] is compared with [memories], the first
    of which has index [i]. *)
Fixpoint compared (img : ndarray) (i : nat) (memories : list ndarray)
    : list event :=
  match memories with
  | [] => []
  | memory :: rest =>
      match _calculate_image_diff img memory with
      | Ok d => [Difference i d]
      | Raise _ => []
      end ++ compared img (S i) rest
  end.

(** The instance has a camera: [reconfigure] has succeeded on it. *)
Definition configured (s : DiffVision) : Prop := input_camera s ≠ None.

(** What PIL's resize does to an 8-bit raster: it succeeds for a positive
    size, keeps the channels and yields 8-bit samples. *)
Definition resize_spec : Prop :=
  ∀ a w h, is_raster a = true → (0 < w)%nat → (0 < h)%nat →
    ∃ r, resize a w h = Ok r ∧ is_raster r = true
         ∧ shape r = h :: w :: drop 2 (shape a).

(** The calls that ask about an image or a scene, as opposed to those that
    configure or command the service. *)
Definition is_query (c : call) : bool :=
  match c with
  | GetDetections _ | GetClassifications _ _
  | GetObjectPointClouds _ | GetGeometries => true
  | Reconfigure _ _ | DoCommand _ => false
  end.

Definition is_reconfigure (c : call) : bool :=
  match c with Reconfigure _ _ => true | _ => false end.

(** The image a query submits, if the call is one. *)
Definition submitted (c : call) : option ViamImage :=
  match c with
  | GetDetections image | GetClassifications image _ => Some image
  | _ => None
  end.

(** ** The comparison loop *)

Lemma compare_memories_all img i memories s :
  forallb (different_enough (required_diff s) img) memories = true →
  compare_memories img i memories s = (Ok true, s, compared img i memories).
Proof.
  revert i. induction memories as [|memory rest IH]; intros i Hall.
  - reflexivity.
  - simpl in Hall. apply andb_prop in Hall as [Hm Hrest].
    unfold different_enough in Hm. simpl.
    unfold bind, lift, info, gets.
    destruct (_calculate_image_diff img memory) as [d|e]; [|discriminate].
    apply negb_true_iff in Hm. simpl. rewrite Hm, (IH (S i) Hrest).
    reflexivity.
Qed.

Lemma compare_memories_stop img i pre memory post d s :
  forallb (different_enough (required_diff s) img) pre = true →
  _calculate_image_diff img memory = Ok d →
  float_lt d (required_diff s) = true →
  compare_memories img i (pre ++ memory :: post) s
  = (Ok false, s,
     compared img i pre
     ++ [Difference (i + length pre) d;
         TooSimilar (i + length pre) d (required_diff s)]).
Proof.
  intros Hpre Hd Hlt. revert i.
  induction pre as [|p pre IH]; intros i; simpl.
  - unfold bind, lift, info, gets. rewrite Hd. simpl. rewrite Hlt. simpl.
    rewrite Nat.add_0_r. reflexivity.
  - simpl in Hpre. apply andb_prop in Hpre as [Hp Hpre].
    unfold different_enough in Hp.
    unfold bind, lift, info, gets.
    destruct (_calculate_image_diff img p) as [dp|e]; [|discriminate].
    apply negb_true_iff in Hp. simpl. rewrite Hp, (IH Hpre (S i)).
    replace (S i + length pre)%nat with (i + S (length pre))%nat by lia.
    reflexivity.
Qed.

(** The loop only reads the instance. *)
Lemma compare_memories_frame img i memories s :
  (compare_memories img i memories s).1.2 = s.
Proof.
  revert i. induction memories as [|memory rest IH]; intros i; simpl.
  - reflexivity.
  - unfold bind, lift, info, gets.
    destruct (_calculate_image_diff img memory) as [d|e]; [|reflexivity].
    simpl. destruct (float_lt d (required_diff s)); simpl.
    + reflexivity.
    + specialize (IH (S i)).
      destruct (compare_memories img (S i) rest s) as [[r s'] l].
      exact IH.
Qed.

(** ** [get_detections] *)

(** The four ways through the body, once the camera is there and the image
    is decoded. *)
Lemma get_detections_decoded image img s :
  configured s →
  decode (image_data image) = Ok img →
  get_detections image s =
  match image_memories s with
  | [] => (Ok [], set_image_memories [img] s, [StoringFirst])
  | memories =>
      match compare_memories img 0 memories s with
      | (Ok true, _, l) => (Raise TypeError, s, l)
      | (Ok false, _, l) => (Ok [], s, l ++ [NotDifferent])
      | (Raise e, _, l) => (Raise e, s, l)
      end
  end.
Proof.
  intros Hcam Hdec. unfold configured in Hcam.
  unfold get_detections, bind at 1, gets at 1.
  destruct (input_camera s) as [c|] eqn:Ec; [|congruence].
  unfold bind at 1, lift at 1. rewrite Hdec.
  unfold bind at 1, gets at 1.
  destruct (image_memories s) as [|m ms] eqn:Em.
  - unfold bind, append, modify, info, ret. simpl. rewrite Em. reflexivity.
  - unfold bind at 1.
    pose proof (compare_memories_frame img 0 (m :: ms) s) as Hframe.
    destruct (compare_memories img 0 (m :: ms) s) as [[r s'] l].
    simpl in Hframe. subst s'.
    destruct r as [[|]|e].
    + unfold bind, gets, lift, int_ge. simpl. rewrite app_nil_r. reflexivity.
    + unfold bind, info, ret. simpl. reflexivity.
    + reflexivity.
Qed.

(** Without a camera nothing else happens. *)
Lemma get_detections_no_camera image s :
  input_camera s = None → get_detections image s = (Raise RuntimeError, s, []).
Proof.
  intros Hcam. unfold get_detections, bind, gets, raise. rewrite Hcam.
  reflexivity.
Qed.

(** A call changes the memory in one case only: it was empty, and then it
    holds the decoded image alone. *)
Lemma get_detections_memory image s :
  (get_detections image s).1.2 = s
  ∨ (image_memories s = []
     ∧ ∃ img, decode (image_data image) = Ok img
              ∧ get_detections image s
                = (Ok [], set_image_memories [img] s, [StoringFirst])).
Proof.
  destruct (input_camera s) as [c|] eqn:Ec.
  - destruct (decode (image_data image)) as [img|e] eqn:Ed.
    + assert (Hc : configured s) by (unfold configured; congruence).
      rewrite (get_detections_decoded image img s Hc Ed).
      destruct (image_memories s) as [|m ms] eqn:Em.
      * right. split; [reflexivity|]. exists img. split; reflexivity.
      * left. destruct (compare_memories img 0 (m :: ms) s) as [[[[|]|e] s'] l];
          reflexivity.
    + left. unfold get_detections, bind, gets, lift. rewrite Ec, Ed.
      reflexivity.
  - left. rewrite get_detections_no_camera by assumption. reflexivity.
Qed.

(** No call returns a detection. *)
Lemma get_detections_returns image s l :
  (get_detections image s).1.1 = Ok l → l = [].
Proof.
  destruct (input_camera s) as [c|] eqn:Ec.
  - destruct (decode (image_data image)) as [img|e] eqn:Ed.
    + assert (Hc : configured s) by (unfold configured; congruence).
      rewrite (get_detections_decoded image img s Hc Ed).
      destruct (image_memories s) as [|m ms]; [simpl; intros H; congruence|].
      destruct (compare_memories img 0 (m :: ms) s) as [[[[|]|e] s'] l'];
        simpl; intros H; congruence.
    + unfold get_detections, bind, gets, lift. rewrite Ec, Ed. discriminate.
  - rewrite get_detections_no_camera by assumption. discriminate.
Qed.

(** C3 — bootstrap: on a configured instance whose memory is empty (just
    configured, or just cleared), a call with an image that decodes returns
    an empty detection list, so [changed] is false, and leaves the memory
    holding that decoded image and nothing else. *)
Theorem first_image_is_stored image img s :
  configured s →
  image_memories s = [] →
  decode (image_data image) = Ok img →
  ∃ detections s',
    get_detections image s = (Ok detections, s', [StoringFirst])
    ∧ detections = []
    ∧ changed detections = false
    ∧ image_memories s' = [img]
    ∧ required_diff s' = required_diff s
    ∧ input_camera s' = input_camera s.
Proof.
  intros Hcam Hmem Hdec.
  exists [], (set_image_memories [img] s).
  rewrite (get_detections_decoded image img s Hcam Hdec), Hmem.
  repeat split.
Qed.

(** C6 — a buffer that PIL cannot decode makes the call raise the decoding
    error, with the instance exactly as it was: same memory, same
    threshold, same camera, and nothing logged.  The same holds for
    [get_classifications], which goes through [get_detections]. *)
Theorem undecodable_image_raises image count e s :
  configured s →
  decode (image_data image) = Raise e →
  get_detections image s = (Raise e, s, [])
  ∧ get_classifications image count s = (Raise e, s, []).
Proof.
  intros Hcam Hdec. unfold configured in Hcam.
  assert (H : get_detections image s = (Raise e, s, [])).
  { unfold get_detections, bind, gets, lift.
    destruct (input_camera s); [|congruence]. rewrite Hdec. reflexivity. }
  split; [exact H|].
  unfold get_classifications, bind. rewrite H. reflexivity.
Qed.

(** C4 — on a non-empty memory the references are compared oldest first,
    and the loop stops at the first one whose score is strictly below the
    threshold: the scores logged are those of the references before it and
    its own, in stored order, and none of a later reference.  The call then
    returns an empty detection list ([changed] is false) and the instance
    is what it was. *)
Theorem similar_image_leaves_memory image img pre memory post d s :
  configured s →
  decode (image_data image) = Ok img →
  image_memories s = pre ++ memory :: post →
  forallb (different_enough (required_diff s) img) pre = true →
  _calculate_image_diff img memory = Ok d →
  float_lt d (required_diff s) = true →
  ∃ detections,
    get_detections image s
    = (Ok detections, s,
       compared img 0 pre
       ++ [Difference (length pre) d;
           TooSimilar (length pre) d (required_diff s);
           NotDifferent])
    ∧ detections = []
    ∧ changed detections = false.
Proof.
  intros Hcam Hdec Hmem Hpre Hd Hlt. exists [].
  rewrite (get_detections_decoded image img s Hcam Hdec), Hmem.
  destruct (pre ++ memory :: post) as [|m ms] eqn:E;
    [destruct pre; discriminate|].
  rewrite <- E.
  rewrite (compare_memories_stop img 0 pre memory post d s Hpre Hd Hlt).
  simpl. rewrite <- app_assoc. repeat split.
Qed.

(** C1 — what the code does where the claim expects the image to be
    committed: with a non-empty memory and every score at or above the
    threshold, the capacity test compares a length with the list itself
    and the call raises [TypeError]; no detection is returned, nothing is
    evicted and nothing is appended. *)
Theorem different_image_raises image img s :
  configured s →
  decode (image_data image) = Ok img →
  image_memories s ≠ [] →
  forallb (different_enough (required_diff s) img) (image_memories s) = true →
  get_detections image s
  = (Raise TypeError, s, compared img 0 (image_memories s)).
Proof.
  intros Hcam Hdec Hne Hall.
  rewrite (get_detections_decoded image img s Hcam Hdec).
  destruct (image_memories s) as [|m ms] eqn:E; [congruence|].
  rewrite (compare_memories_all img 0 (m :: ms) s Hall). reflexivity.
Qed.

(** C5 — what the code does where the claim expects [changed] to be true:
    whatever the threshold, the memory and the image, a call that returns
    returns no detection, so [changed] is false even when every score is at
    or above the threshold. *)
Theorem change_is_never_reported image s detections :
  (get_detections image s).1.1 = Ok detections →
  changed detections = false.
Proof.
  intros H. apply get_detections_returns in H. subst. reflexivity.
Qed.

(** ** The other methods *)

Lemma get_classifications_state image count s :
  (get_classifications image count s).1.2 = (get_detections image s).1.2.
Proof.
  unfold get_classifications, bind, ret.
  destruct (get_detections image s) as [[[l|e] s'] lg]; reflexivity.
Qed.

Lemma get_classifications_returns image count s l :
  (get_classifications image count s).1.1 = Ok l → l = [].
Proof.
  unfold get_classifications, bind, ret.
  pose proof (get_detections_returns image s) as H.
  destruct (get_detections image s) as [[[l'|e] s'] lg]; simpl in *.
  - rewrite (H l' eq_refl). simpl. congruence.
  - discriminate.
Qed.

(** [reconfigure] raises before it writes, or resets the memory. *)
Lemma reconfigure_memory config dependencies s :
  (reconfigure config dependencies s).1.2 = s
  ∨ image_memories (reconfigure config dependencies s).1.2 = [].
Proof.
  unfold reconfigure, bind, lift, modify, raise.
  destruct (dependencies !! _) as [dep|]; [|left; reflexivity].
  destruct (from_robot dep) as [camera|e]; [right|left]; reflexivity.
Qed.

Lemma reconfigure_returns config dependencies s :
  (reconfigure config dependencies s).1.1 = Ok tt →
  configured (reconfigure config dependencies s).1.2
  ∧ image_memories (reconfigure config dependencies s).1.2 = [].
Proof.
  unfold reconfigure, bind, lift, modify, raise, configured.
  destruct (dependencies !! _) as [dep|]; [|discriminate].
  destruct (from_robot dep) as [camera|e]; [|discriminate].
  simpl. split; [discriminate|reflexivity].
Qed.

(** The instance [new_vision] hands to the host is configured and has an
    empty memory. *)
Lemma new_vision_fresh config dependencies service :
  new_vision config dependencies = Ok service →
  configured service ∧ image_memories service = [].
Proof.
  unfold new_vision.
  pose proof (reconfigure_returns config dependencies
                (init (config_name config))) as H.
  destruct (reconfigure config dependencies (init (config_name config)))
    as [[[[]|e] s'] lg]; [|discriminate].
  intros [= <-]. exact (H eq_refl).
Qed.

Lemma do_command_memory command s :
  (do_command command s).1.2 = s
  ∨ image_memories (do_command command s).1.2 = [].
Proof.
  unfold do_command. case_decide; [right|left]; reflexivity.
Qed.

(** ** Sequences of calls *)

Lemma after_get_detections image s :
  after (GetDetections image) s = (get_detections image s).1.2.
Proof.
  unfold after, perform, bind, ret.
  destruct (get_detections image s) as [[[l|e] s'] lg]; reflexivity.
Qed.

Lemma after_get_classifications image count s :
  after (GetClassifications image count) s = (get_detections image s).1.2.
Proof.
  rewrite <- (get_classifications_state image count).
  unfold after, perform, bind, ret.
  destruct (get_classifications image count s) as [[[l|e] s'] lg];
    reflexivity.
Qed.

(** A call leaves the memory alone, empties it, or is the bootstrap. *)
Lemma after_memory c s :
  image_memories (after c s) = image_memories s
  ∨ image_memories (after c s) = []
  ∨ (image_memories s = []
     ∧ ∃ image img,
         (c = GetDetections image ∨ ∃ count, c = GetClassifications image count)
         ∧ decode (image_data image) = Ok img
         ∧ image_memories (after c s) = [img]).
Proof.
  destruct c as [config dependencies|image|image count|camera_name|command|].
  - unfold after, perform, bind, ret.
    destruct (reconfigure_memory config dependencies s) as [H|H];
      destruct (reconfigure config dependencies s) as [[[u|e] s'] lg];
      simpl in *; subst; auto.
  - rewrite after_get_detections.
    destruct (get_detections_memory image s) as [H|[Hm [img [Hd H]]]].
    + left. rewrite H. reflexivity.
    + right. right. split; [exact Hm|]. exists image, img.
      rewrite H. auto.
  - rewrite after_get_classifications.
    destruct (get_detections_memory image s) as [H|[Hm [img [Hd H]]]].
    + left. rewrite H. reflexivity.
    + right. right. split; [exact Hm|]. exists image, img.
      rewrite H. eauto.
  - left. reflexivity.
  - unfold after, perform, bind, ret.
    destruct (do_command_memory command s) as [H|H];
      destruct (do_command command s) as [[[u|e] s'] lg];
      simpl in *; subst; auto.
  - left. reflexivity.
Qed.

Lemma after_length c s :
  (length (image_memories s) ≤ 1)%nat →
  (length (image_memories (after c s)) ≤ 1)%nat.
Proof.
  intros H.
  destruct (after_memory c s) as [E|[E|[_ [image [img [_ [_ E]]]]]]];
    rewrite E; simpl; lia.
Qed.

Lemma run_length cs s :
  (length (image_memories s) ≤ 1)%nat →
  (length (image_memories (run cs s)) ≤ 1)%nat.
Proof.
  revert s. induction cs as [|c cs IH]; intros s H; simpl.
  - exact H.
  - apply IH, after_length, H.
Qed.

Lemma validate_config_capacity attributes deps capacity :
  validate_config attributes = Ok deps →
  (attributes !! "image_memories") ≫= is_int = Some capacity →
  1 ≤ capacity.
Proof.
  unfold validate_config. intros Hv Hc.
  destruct (attributes !! "image_memories") as [m|]; [|discriminate].
  simpl in Hc. rewrite Hc in Hv.
  destruct (capacity <? 1) eqn:E; [discriminate|].
  apply Z.ltb_ge in E. exact E.
Qed.

(** C10 — the [targeted_memory_erasure] command returns the success
    status without raising, empties the memory at once, leaves the
    threshold, the camera and the name as they were (the instance keeps no
    capacity of its own), and a second command right after returns the same
    status and leaves the same instance. *)
Theorem erasure_clears_and_is_idempotent command s :
  is_Some (command !! "targeted_memory_erasure") →
  ∃ status s',
    do_command command s = (Ok status, s', [])
    ∧ status !! "status" = Some "success"
    ∧ image_memories s' = []
    ∧ required_diff s' = required_diff s
    ∧ input_camera s' = input_camera s
    ∧ name s' = name s
    ∧ do_command command s' = (Ok status, s', []).
Proof.
  intros Hkey.
  exists {[ "status" := "success"; "message" := "All image memories cleared" ]},
    (set_image_memories [] s).
  unfold do_command. case_decide; [|contradiction].
  repeat split.
Qed.

(** C2 — after any sequence of calls on a new instance (reconfigurations,
    evaluations, commands and the unsupported queries, whether they return
    or raise), the number of stored images is between 0 and the capacity,
    for every capacity that [validate_config] accepts as the
    [image_memories] attribute. *)
Theorem memory_within_capacity attributes deps capacity cs name :
  validate_config attributes = Ok deps →
  (attributes !! "image_memories") ≫= is_int = Some capacity →
  0 ≤ Z.of_nat (length (image_memories (run cs (init name)))) ≤ capacity.
Proof.
  intros Hv Hc.
  pose proof (validate_config_capacity attributes deps capacity Hv Hc).
  pose proof (run_length cs (init name)) as Hlen. simpl in Hlen.
  specialize (Hlen (Nat.le_0_l 1)). lia.
Qed.

(** C7 — after any sequence of calls that all return normally, the memory
    holds at most one image; and a call that returns normally from such a
    state and makes the memory longer is the bootstrap: the memory was
    empty, the call is [get_detections] or [get_classifications] on an image
    that decodes, and the memory is then that image alone. *)
Theorem memory_holds_at_most_one cs name :
  all_return cs (init name) = true →
  let s := run cs (init name) in
  (length (image_memories s) ≤ 1)%nat
  ∧ ∀ c,
      returns c s = true →
      (length (image_memories s) < length (image_memories (after c s)))%nat →
      image_memories s = []
      ∧ ∃ image img,
          (c = GetDetections image ∨ ∃ count, c = GetClassifications image count)
          ∧ decode (image_data image) = Ok img
          ∧ image_memories (after c s) = [img].
Proof.
  intros _ s. split.
  - apply run_length. simpl. lia.
  - intros c _ Hlonger.
    destruct (after_memory c s) as [E|[E|H]].
    + rewrite E in Hlonger. lia.
    + rewrite E in Hlonger. simpl in Hlonger. lia.
    + exact H.
Qed.

(** ** The difference metric *)

Lemma broadcast_dim_comm a b : broadcast_dim a b = broadcast_dim b a.
Proof.
  unfold broadcast_dim.
  destruct (Nat.eqb_spec a b), (Nat.eqb_spec b a); try congruence.
  destruct (Nat.eqb_spec a 1), (Nat.eqb_spec b 1); congruence.
Qed.

Lemma broadcast_dims_comm s1 s2 : broadcast_dims s1 s2 = broadcast_dims s2 s1.
Proof.
  revert s2. induction s1 as [|a s1 IH]; intros [|b s2]; simpl; try reflexivity.
  rewrite (broadcast_dim_comm a b), (IH s2). reflexivity.
Qed.

Lemma broadcast_shapes_comm s1 s2 :
  broadcast_shapes s1 s2 = broadcast_shapes s2 s1.
Proof.
  unfold broadcast_shapes.
  rewrite (Nat.max_comm (length s1) (length s2)). apply broadcast_dims_comm.
Qed.

Lemma zip_with_abs_comm xs ys :
  zip_with (λ x y, Z.abs (x - y)) xs ys = zip_with (λ x y, Z.abs (x - y)) ys xs.
Proof.
  revert ys. induction xs as [|x xs IH]; intros [|y ys]; simpl; try reflexivity.
  f_equal; [lia|apply IH].
Qed.

(** The absolute difference does not depend on the order of the operands,
    whatever their shapes. *)
Lemma abs_diff_comm a b : abs_diff a b = abs_diff b a.
Proof.
  unfold abs_diff. rewrite (broadcast_shapes_comm (shape a) (shape b)).
  destruct (broadcast_shapes (shape b) (shape a)) as [sh|]; [|reflexivity].
  rewrite zip_with_abs_comm. reflexivity.
Qed.

(** C8 — for two images of the same dimensions, that is of the same
    shape, the score of the first against the second is the score of the
    second against the first: the same float, or the same exception. *)
Theorem difference_is_symmetric img1 img2 :
  shape img1 = shape img2 →
  _calculate_image_diff img1 img2 = _calculate_image_diff img2 img1.
Proof.
  intros Hshape. unfold _calculate_image_diff.
  rewrite !bool_decide_eq_false_2 by (intros H; apply H; congruence).
  rewrite (abs_diff_comm img1 img2). reflexivity.
Qed.

(** The same for two images of one height and width whose channel
    layouts may differ, when resizing an image to its own size gives the
    image back, as PIL does. *)
Lemma difference_is_symmetric_same_size img1 img2 h w channels1 channels2 :
  (∀ a rest, shape a = h :: w :: rest → resize a w h = Ok a) →
  shape img1 = h :: w :: channels1 →
  shape img2 = h :: w :: channels2 →
  _calculate_image_diff img1 img2 = _calculate_image_diff img2 img1.
Proof.
  intros Hsame H1 H2.
  destruct (decide (channels1 = channels2)) as [->|Hne].
  - unfold _calculate_image_diff.
    rewrite !bool_decide_eq_false_2 by (intros H; apply H; congruence).
    rewrite (abs_diff_comm img1 img2). reflexivity.
  - unfold _calculate_image_diff.
    rewrite H1, H2, Nat.ltb_irrefl.
    rewrite !bool_decide_eq_true_2 by congruence.
    rewrite (Hsame img1 channels1 H1), (Hsame img2 channels2 H2).
    rewrite (abs_diff_comm img1 img2). reflexivity.
Qed.

(** *** Same-shape operands *)

Lemma chunks_lengths {A} n k (d : list A) :
  length d = (n * k)%nat → Forall (λ c, length c = k) (chunks n k d).
Proof.
  revert d. induction n as [|n IH]; intros d Hd; simpl.
  - constructor.
  - constructor.
    + rewrite length_take. lia.
    + apply IH. rewrite length_drop. lia.
Qed.

Lemma chunks_concat {A} n k (d : list A) :
  length d = (n * k)%nat → concat (chunks n k d) = d.
Proof.
  revert d. induction n as [|n IH]; intros d Hd; simpl.
  - destruct d; [reflexivity|discriminate].
  - rewrite IH by (rewrite length_drop; lia). apply take_drop.
Qed.

Lemma broadcast_to_same sh d :
  length d = size_of sh → broadcast_to sh sh d = d.
Proof.
  revert d. induction sh as [|s sh IH]; intros d Hd; simpl.
  - reflexivity.
  - rewrite Nat.eqb_refl. simpl in Hd.
    rewrite <- (chunks_concat s (size_of sh) d Hd) at 2.
    f_equal.
    pose proof (chunks_lengths s (size_of sh) d Hd) as Hall.
    induction Hall as [|c cs Hc _ IHcs]; simpl; [reflexivity|].
    rewrite (IH c Hc), IHcs. reflexivity.
Qed.

Lemma broadcast_dims_same sh : broadcast_dims sh sh = Some sh.
Proof.
  induction sh as [|s sh IH]; simpl; [reflexivity|].
  unfold broadcast_dim. rewrite Nat.eqb_refl, IH. reflexivity.
Qed.

Lemma pad_shape_same sh : pad_shape (length sh) sh = sh.
Proof. unfold pad_shape. rewrite Nat.sub_diag. reflexivity. Qed.

Lemma abs_diff_same_shape a b :
  shape a = shape b →
  length (data a) = size_of (shape a) →
  length (data b) = size_of (shape b) →
  abs_diff a b
  = Ok (mk_ndarray (shape a)
          (zip_with (λ x y, Z.abs (x - y)) (data a) (data b))).
Proof.
  intros Hs Ha Hb. unfold abs_diff, broadcast_shapes.
  rewrite <- Hs in *. rewrite Nat.max_id, pad_shape_same, broadcast_dims_same.
  rewrite pad_shape_same, !broadcast_to_same by assumption. reflexivity.
Qed.

(** *** Bounds *)

Lemma is_uint8_bounds z : is_uint8 z = true → 0 ≤ z ≤ 255.
Proof. unfold is_uint8. intros H. apply andb_prop in H as [? ?]. lia. Qed.

Lemma sum_abs_bounds xs ys :
  forallb is_uint8 xs = true → forallb is_uint8 ys = true →
  let ds := zip_with (λ x y, Z.abs (x - y)) xs ys in
  0 ≤ sum ds ≤ 255 * Z.of_nat (length ds).
Proof.
  revert ys. induction xs as [|x xs IH]; intros [|y ys] Hx Hy; simpl;
    try lia.
  simpl in Hx, Hy.
  apply andb_prop in Hx as [Hx Hxs]. apply andb_prop in Hy as [Hy Hys].
  apply is_uint8_bounds in Hx, Hy.
  specialize (IH ys Hxs Hys). simpl in IH. lia.
Qed.

Lemma mean_bounds total n :
  0 < n → 0 ≤ total ≤ 255 * n →
  (0 <= inject_Z total / inject_Z n / 255 <= 1)%Q.
Proof.
  intros Hn [Hlo Hhi].
  destruct n as [|p|p]; try lia.
  unfold Qle, Qdiv, Qmult, Qinv, inject_Z. simpl.
  split; nia.
Qed.

Lemma raster_facts a :
  is_raster a = true →
  (∃ h w rest, shape a = h :: w :: rest ∧ (0 < h)%nat ∧ (0 < w)%nat)
  ∧ length (data a) = size_of (shape a)
  ∧ forallb is_uint8 (data a) = true
  ∧ (0 < size_of (shape a))%nat.
Proof.
  unfold is_raster. intros H.
  assert (Hall : forallb (λ d, (0 <? d)%nat) (shape a)
                 && (length (data a) =? size_of (shape a))%nat
                 && forallb is_uint8 (data a) = true
                 ∧ ∃ h w rest, shape a = h :: w :: rest).
  { destruct (shape a) as [|h [|w [|c [|? ?]]]]; try discriminate; eauto. }
  destruct Hall as [Hall [h [w [rest Hsh]]]].
  apply andb_prop in Hall as [Hall Hu]. apply andb_prop in Hall as [Hpos Hlen].
  apply Nat.eqb_eq in Hlen.
  assert (Hp : Forall (λ d, (0 < d)%nat) (shape a)).
  { apply Forall_forall. intros d Hd.
    rewrite forallb_forall in Hpos. apply Nat.ltb_lt, Hpos.
    apply list_elem_of_In, Hd. }
  repeat split; try assumption.
  - exists h, w, rest. rewrite Hsh in Hp.
    inversion Hp as [|? ? Hh Hp']; subst. inversion Hp'; subst. auto.
  - clear -Hp. induction Hp; simpl; lia.
Qed.

(** Two rasters of one shape always have a score, and it is in [0,1]. *)
Lemma same_shape_score a b :
  is_raster a = true → is_raster b = true → shape a = shape b →
  ∃ q, _calculate_image_diff a b = Ok (Fl q) ∧ (0 <= q <= 1)%Q.
Proof.
  intros Ha Hb Hs.
  destruct (raster_facts a Ha) as (_ & Hla & Hua & Hpos).
  destruct (raster_facts b Hb) as (_ & Hlb & Hub & _).
  unfold _calculate_image_diff.
  rewrite bool_decide_eq_false_2 by (intros H; apply H; exact Hs).
  rewrite (abs_diff_same_shape a b Hs Hla Hlb).
  pose proof (sum_abs_bounds (data a) (data b) Hua Hub) as Hsum.
  simpl in Hsum. unfold mean. simpl.
  set (ds := zip_with (λ x y, Z.abs (x - y)) (data a) (data b)) in *.
  assert (Hlen : length ds = size_of (shape a)).
  { unfold ds. rewrite length_zip_with. rewrite Hla, Hlb, <- Hs. lia. }
  destruct ds as [|d ds'] eqn:E; [simpl in Hlen; lia|].
  rewrite <- E in *. simpl.
  eexists. split; [reflexivity|].
  apply mean_bounds; [lia|exact Hsum].
Qed.

(** *** Operands of different shapes *)

Lemma diff_same_shape a b :
  shape a = shape b →
  _calculate_image_diff a b
  = match abs_diff a b with
    | Ok d => Ok (float_div (mean d) 255)
    | Raise e => Raise e
    end.
Proof.
  intros Hs. unfold _calculate_image_diff.
  rewrite bool_decide_eq_false_2 by (intros H; apply H; exact Hs).
  reflexivity.
Qed.

(** The first operand has more pixels: it is the one resized. *)
Lemma diff_resizes_first img1 img2 h1 w1 r1 h2 w2 r2 r :
  shape img1 = h1 :: w1 :: r1 → shape img2 = h2 :: w2 :: r2 →
  shape img1 ≠ shape img2 →
  (h2 * w2 < h1 * w1)%nat →
  resize img1 w2 h2 = Ok r →
  _calculate_image_diff img1 img2
  = match abs_diff r img2 with
    | Ok d => Ok (float_div (mean d) 255)
    | Raise e => Raise e
    end.
Proof.
  intros H1 H2 Hne Hlt Hr. unfold _calculate_image_diff.
  rewrite bool_decide_eq_true_2 by exact Hne.
  rewrite H1, H2. apply Nat.ltb_lt in Hlt. rewrite Hlt, Hr. reflexivity.
Qed.

(** Otherwise the second operand is resized, also when both have the same
    number of pixels. *)
Lemma diff_resizes_second img1 img2 h1 w1 r1 h2 w2 r2 r :
  shape img1 = h1 :: w1 :: r1 → shape img2 = h2 :: w2 :: r2 →
  shape img1 ≠ shape img2 →
  (h1 * w1 ≤ h2 * w2)%nat →
  resize img2 w1 h1 = Ok r →
  _calculate_image_diff img1 img2
  = match abs_diff img1 r with
    | Ok d => Ok (float_div (mean d) 255)
    | Raise e => Raise e
    end.
Proof.
  intros H1 H2 Hne Hle Hr. unfold _calculate_image_diff.
  rewrite bool_decide_eq_true_2 by exact Hne.
  rewrite H1, H2. apply Nat.ltb_ge in Hle. rewrite Hle, Hr. reflexivity.
Qed.

(** Three channels against none: whatever the resampling, the resized
    4x4x3 image has shape (2, 2, 3), which does not broadcast with
    (2, 2). *)
Lemma channel_mismatch_raises :
  resize_spec →
  _calculate_image_diff Sample.rgb4 Sample.grey2 = Raise ValueError.
Proof.
  intros Hresize.
  destruct (Hresize Sample.rgb4 2%nat 2%nat) as (r & Hr & _ & Hsh);
    [reflexivity|lia|lia|].
  rewrite (diff_resizes_first Sample.rgb4 Sample.grey2
             4 4 [3%nat] 2 2 [] r); try reflexivity; try exact Hr.
  - unfold abs_diff. rewrite Hsh. reflexivity.
  - discriminate.
  - simpl. lia.
Qed.

(** C9 (amended) — two 8-bit rasters with the same channel layout and
    different pixel dimensions always get a score, and it lies in [0,1];
    when one has more pixels than the other it is the one resized, to the
    height and width of the other, and the score is that of the resized
    image against the other. *)
Theorem mismatched_sizes_score img1 img2 h1 w1 h2 w2 channels :
  resize_spec →
  is_raster img1 = true → is_raster img2 = true →
  shape img1 = h1 :: w1 :: channels →
  shape img2 = h2 :: w2 :: channels →
  (h1, w1) ≠ (h2, w2) →
  (∃ q, _calculate_image_diff img1 img2 = Ok (Fl q) ∧ (0 <= q <= 1)%Q)
  ∧ ((h2 * w2 < h1 * w1)%nat →
     ∃ r, resize img1 w2 h2 = Ok r ∧ shape r = shape img2
          ∧ _calculate_image_diff img1 img2 = _calculate_image_diff r img2)
  ∧ ((h1 * w1 < h2 * w2)%nat →
     ∃ r, resize img2 w1 h1 = Ok r ∧ shape r = shape img1
          ∧ _calculate_image_diff img1 img2 = _calculate_image_diff img1 r).
Proof.
  intros Hresize Ha Hb H1 H2 Hdims.
  assert (Hne : shape img1 ≠ shape img2) by (rewrite H1, H2; congruence).
  destruct (raster_facts img1 Ha) as ((?&?&?& E1 & Hh1 & Hw1) & _).
  destruct (raster_facts img2 Hb) as ((?&?&?& E2 & Hh2 & Hw2) & _).
  rewrite H1 in E1. rewrite H2 in E2.
  injection E1 as <- <- <-. injection E2 as <- <- _.
  destruct (Hresize img1 w2 h2 Ha Hw2 Hh2) as (ra & Hra & Hrra & Hsa).
  destruct (Hresize img2 w1 h1 Hb Hw1 Hh1) as (rb & Hrb & Hrrb & Hsb).
  rewrite H1 in Hsa. rewrite H2 in Hsb. simpl in Hsa, Hsb.
  rewrite drop_0 in Hsa, Hsb.
  rewrite <- H2 in Hsa. rewrite <- H1 in Hsb.
  assert (Hfirst : (h2 * w2 < h1 * w1)%nat →
            _calculate_image_diff img1 img2 = _calculate_image_diff ra img2).
  { intros Hlt. rewrite (diff_same_shape ra img2 Hsa).
    exact (diff_resizes_first _ _ _ _ _ _ _ _ _ H1 H2 Hne Hlt Hra). }
  assert (Hsecond : (h1 * w1 ≤ h2 * w2)%nat →
            _calculate_image_diff img1 img2 = _calculate_image_diff img1 rb).
  { intros Hle. rewrite (diff_same_shape img1 rb (eq_sym Hsb)).
    exact (diff_resizes_second _ _ _ _ _ _ _ _ _ H1 H2 Hne Hle Hrb). }
  split; [|split].
  - destruct (Nat.lt_ge_cases (h2 * w2) (h1 * w1)) as [Hlt|Hle].
    + rewrite (Hfirst Hlt). exact (same_shape_score ra img2 Hrra Hb Hsa).
    + rewrite (Hsecond Hle).
      exact (same_shape_score img1 rb Ha Hrrb (eq_sym Hsb)).
  - intros Hlt. exists ra. auto.
  - intros Hlt. exists rb. split; [exact Hrb|]. split; [exact Hsb|].
    apply Hsecond. lia.
Qed.

(** ** Configuration *)

(** X1 — [validate_config] accepts a dictionary exactly when
    [image_memories] is an int (or bool) of at least 1, [input_camera] is a
    string, and [required_diff] is absent or a number between 0 and 1 (NaN
    is refused); the dependencies it returns are the camera name alone. *)
Theorem validate_config_accepts config deps :
  validate_config config = Ok deps ↔
  ∃ n cam,
    config !! "image_memories" ≫= is_int = Some n ∧ 1 ≤ n
    ∧ config !! "input_camera" ≫= is_str = Some cam
    ∧ deps = [cam]
    ∧ (config !! "required_diff" = None
       ∨ ∃ r x, config !! "required_diff" = Some r
                ∧ is_number r = Some (Fl x) ∧ (0 <= x <= 1)%Q).
Proof.
  unfold validate_config. split.
  - intros H.
    destruct (config !! "image_memories") as [m|]; [|discriminate]. simpl.
    destruct (is_int m) as [n|]; [|discriminate].
    destruct (Z.ltb_spec n 1); [discriminate|].
    destruct (config !! "input_camera") as [c|]; [|discriminate]. simpl.
    destruct (is_str c) as [cam|]; [|discriminate].
    exists n, cam. split; [reflexivity|]. split; [assumption|].
    split; [reflexivity|].
    destruct (config !! "required_diff") as [r|].
    + destruct (is_number r) as [[|x]|] eqn:En; try discriminate.
      destruct (float_le (Fl 0) (Fl x) && float_le (Fl x) (Fl 1)) eqn:E;
        [|discriminate].
      apply andb_prop in E as [E0 E1]. simpl in E0, E1.
      apply Qle_bool_iff in E0, E1.
      split; [congruence|]. right. exists r, x. auto.
    + split; [congruence|]. left. reflexivity.
  - intros (n & cam & Hn & Hn1 & Hc & -> & Hr).
    destruct (config !! "image_memories") as [m|]; [|discriminate].
    simpl in Hn. rewrite Hn.
    destruct (Z.ltb_spec n 1); [lia|].
    destruct (config !! "input_camera") as [c|]; [|discriminate].
    simpl in Hc. rewrite Hc.
    destruct Hr as [->|(r & x & -> & -> & H0 & H1)]; [reflexivity|].
    simpl. apply Qle_bool_iff in H0, H1. rewrite H0, H1. reflexivity.
Qed.

(** X2 — a [reconfigure] that raises (the camera is not among the
    dependencies, or [Camera.from_robot] fails) has written nothing: the
    instance keeps its memory, threshold and camera. *)
Theorem reconfigure_failure_keeps_instance config dependencies s e :
  (reconfigure config dependencies s).1.1 = Raise e →
  reconfigure config dependencies s = (Raise e, s, []).
Proof.
  unfold reconfigure, bind, lift, modify, raise.
  destruct (dependencies !! _) as [dep|]; simpl.
  - destruct (from_robot dep) as [camera|e']; simpl; [discriminate|].
    intros [= ->]. reflexivity.
  - intros [= <-]. reflexivity.
Qed.

(** X3 — a [reconfigure] that returns is a hard reset: the instance it
    leaves depends on the configuration, the dependencies and the name only,
    not on the memory, threshold or camera the instance had; in particular
    running it a second time changes nothing. *)
Theorem reconfigure_is_hard_reset config dependencies s s' :
  (reconfigure config dependencies s).1.1 = Ok tt →
  name s' = name s →
  reconfigure config dependencies s' = reconfigure config dependencies s
  ∧ reconfigure config dependencies (reconfigure config dependencies s).1.2
    = reconfigure config dependencies s.
Proof.
  unfold reconfigure, bind, lift, modify, raise.
  destruct (dependencies !! _) as [dep|]; simpl; [|discriminate].
  destruct (from_robot dep) as [camera|e]; simpl; [|discriminate].
  intros _ Hname.
  unfold set_required_diff, set_image_memories, set_input_camera. simpl.
  rewrite Hname. split; reflexivity.
Qed.

(** X4 — [reconfigure] never reads the [image_memories] attribute: setting
    it to any value, or removing it, changes neither the outcome nor the
    instance.  The capacity is not stored anywhere. *)
Theorem reconfigure_ignores_capacity n f v dependencies s :
  reconfigure {| config_name := n; fields := <["image_memories" := v]> f |}
    dependencies s
  = reconfigure {| config_name := n; fields := f |} dependencies s
  ∧ reconfigure {| config_name := n; fields := delete "image_memories" f |}
      dependencies s
    = reconfigure {| config_name := n; fields := f |} dependencies s.
Proof.
  unfold reconfigure, get_field. simpl.
  rewrite !lookup_insert_ne, !lookup_delete_ne by discriminate.
  split; reflexivity.
Qed.

(** X5 — [new_vision] hands out an instance exactly when the configured
    camera is among the dependencies and [Camera.from_robot] accepts it; the
    instance then bears the configuration's name, has that camera, an empty
    memory, and the [required_diff] number if the attribute is present,
    0.2 otherwise. *)
Theorem new_vision_result config dependencies service :
  new_vision config dependencies = Ok service ↔
  ∃ dep camera,
    dependencies !! (("rdk", "component", "camera",
                      string_value (get_field config "input_camera"))
                     : ResourceName) = Some dep
    ∧ from_robot dep = Ok camera
    ∧ service = mk_DiffVision (config_name config) []
                  (match fields config !! "required_diff" with
                   | Some v => number_value v
                   | None => Fl (2 # 10)
                   end)
                  (Some camera).
Proof.
  unfold new_vision, reconfigure, bind, lift, modify, raise.
  split.
  - destruct (dependencies !! _) as [dep|] eqn:Ed; simpl; [|discriminate].
    destruct (from_robot dep) as [camera|e] eqn:Ef; simpl; [|discriminate].
    intros [= <-]. exists dep, camera. auto.
  - intros (dep & camera & -> & Hf & ->). simpl. rewrite Hf. reflexivity.
Qed.

(** ** Queries and commands *)

Lemma detection_records_same (l : list detection) :
  map (λ d, {| confidence := confidence d; class_name := class_name d |}) l = l.
Proof.
  induction l as [|[c n] l IH]; simpl; [reflexivity|]. rewrite IH. reflexivity.
Qed.

(** X6 — [get_classifications] is [get_detections]: the same records or
    the same exception, the same instance afterwards, the same log;
    [count] is not looked at. *)
Theorem classifications_are_detections image count s :
  get_classifications image count s = get_detections image s.
Proof.
  unfold get_classifications, bind, ret.
  destruct (get_detections image s) as [[[l|e] s'] lg]; [|reflexivity].
  rewrite detection_records_same, app_nil_r. reflexivity.
Qed.

(** X7 — on an instance without a camera ([__init__] alone, no successful
    [reconfigure]) both queries raise [RuntimeError] before the buffer is
    looked at: the outcome is the same for every image, decodable or not,
    and the instance is unchanged. *)
Theorem no_camera_raises image count s :
  input_camera s = None →
  get_detections image s = (Raise RuntimeError, s, [])
  ∧ get_classifications image count s = (Raise RuntimeError, s, []).
Proof.
  intros Hcam.
  pose proof (get_detections_no_camera image s Hcam) as H.
  split; [exact H|].
  unfold get_classifications, bind. rewrite H. reflexivity.
Qed.

Lemma after_keeps_name_and_camera c s :
  name (after c s) = name s ∧ (configured s → configured (after c s)).
Proof.
  unfold configured.
  destruct c as [config dependencies|image|image count|camera_name|command|].
  - unfold after, perform, reconfigure, bind, lift, modify, raise, ret.
    destruct (dependencies !! _) as [dep|]; simpl; [|auto].
    destruct (from_robot dep) as [camera|e]; simpl; [|auto].
    split; [reflexivity|discriminate].
  - rewrite after_get_detections.
    destruct (get_detections_memory image s) as [H|[_ [img [_ H]]]];
      rewrite H; simpl; auto.
  - rewrite after_get_classifications.
    destruct (get_detections_memory image s) as [H|[_ [img [_ H]]]];
      rewrite H; simpl; auto.
  - auto.
  - unfold after, perform, do_command, bind, ret.
    case_decide; simpl; auto.
  - auto.
Qed.

(** X8 — no call renames the instance, and no call takes the camera away:
    after any sequence of calls the name is what it was, and an instance
    that had a camera still has one, so [RuntimeError] cannot come back. *)
Theorem configuration_persists cs s :
  name (run cs s) = name s ∧ (configured s → configured (run cs s)).
Proof.
  revert s. induction cs as [|c cs IH]; intros s; simpl.
  - auto.
  - destruct (IH (after c s)) as [Hn Hc].
    destruct (after_keeps_name_and_camera c s) as [Hn' Hc'].
    split; [congruence|auto].
Qed.

Lemma query_keeps_instance c s :
  is_query c = true → image_memories s ≠ [] → after c s = s.
Proof.
  intros Hq Hne.
  destruct c as [config dependencies|image|image count|camera_name|command|];
    try discriminate.
  - rewrite after_get_detections.
    destruct (get_detections_memory image s) as [H|[H _]]; [exact H|contradiction].
  - rewrite after_get_classifications.
    destruct (get_detections_memory image s) as [H|[H _]]; [exact H|contradiction].
  - reflexivity.
  - reflexivity.
Qed.

(** X9 — once the memory holds an image, queries never change the
    instance: whatever images are submitted afterwards, differing or not,
    decodable or not, the stored reference stays the one it is until a
    command or a reconfiguration clears the memory. *)
Theorem reference_is_frozen cs s :
  image_memories s ≠ [] →
  forallb is_query cs = true →
  run cs s = s.
Proof.
  intros Hne. induction cs as [|c cs IH]; intros Hq; simpl.
  - reflexivity.
  - simpl in Hq. apply andb_prop in Hq as [Hc Hcs].
    rewrite (query_keeps_instance c s Hc Hne). exact (IH Hcs).
Qed.

(** X10 — a command without the [targeted_memory_erasure] key is answered
    with the error status, not with an exception, and leaves the instance
    as it was; the other keys and all values are ignored. *)
Theorem unknown_command_is_harmless command s :
  command !! "targeted_memory_erasure" = None →
  ∃ status,
    do_command command s = (Ok status, s, [])
    ∧ status !! "status" = Some "error"
    ∧ status !! "message" = Some "Unknown command".
Proof.
  intros Hkey. unfold do_command.
  case_decide as H; [rewrite Hkey in H; destruct H; discriminate|].
  eexists. split; [reflexivity|]. split; reflexivity.
Qed.

(** X11 — a [get_detections] that returns returns an empty list and leaves
    the memory non-empty; it can only return on an instance with a camera
    and for a buffer that decodes. *)
Theorem returning_call_keeps_reference image s l :
  (get_detections image s).1.1 = Ok l →
  l = []
  ∧ image_memories (get_detections image s).1.2 ≠ []
  ∧ configured s
  ∧ ∃ img, decode (image_data image) = Ok img.
Proof.
  intros H. split; [exact (get_detections_returns image s l H)|].
  destruct (input_camera s) as [c|] eqn:Ec.
  - assert (Hc : configured s) by (unfold configured; congruence).
    destruct (decode (image_data image)) as [img|e] eqn:Ed.
    + split; [|split; [exact Hc|eauto]].
      rewrite (get_detections_decoded image img s Hc Ed) in *.
      destruct (image_memories s) as [|m ms] eqn:Em; [simpl; discriminate|].
      destruct (compare_memories img 0 (m :: ms) s) as [[[[|]|e] s'] lg];
        simpl in *; try discriminate; rewrite Em; discriminate.
    + unfold get_detections, bind, gets, lift in H. rewrite Ec, Ed in H.
      discriminate.
  - rewrite get_detections_no_camera in H by assumption. discriminate.
Qed.

(** X12 — erasing and then submitting an image bootstraps again: on an
    instance with a camera, whatever the memory held, the erase command
    followed by [get_detections] on a decodable image returns no detection
    and leaves that image as the only reference. *)
Theorem erase_then_evaluate_bootstraps command image img s :
  configured s →
  is_Some (command !! "targeted_memory_erasure") →
  decode (image_data image) = Ok img →
  get_detections image (after (DoCommand command) s)
  = (Ok [], set_image_memories [img] s, [StoringFirst]).
Proof.
  intros Hc Hkey Hdec.
  assert (Ha : after (DoCommand command) s = set_image_memories [] s).
  { unfold after, perform, do_command, bind, ret.
    case_decide; [reflexivity|contradiction]. }
  rewrite Ha.
  rewrite (get_detections_decoded image img (set_image_memories [] s));
    [reflexivity|exact Hc|exact Hdec].
Qed.

(** ** The threshold *)

Lemma compare_memories_flag img i memories s b :
  (compare_memories img i memories s).1.1 = Ok b →
  b = forallb (different_enough (required_diff s) img) memories.
Proof.
  revert i. induction memories as [|memory rest IH]; intros i; simpl.
  - intros [= <-]. reflexivity.
  - unfold bind, lift, info, gets, different_enough.
    destruct (_calculate_image_diff img memory) as [d|e]; simpl;
      [|discriminate].
    destruct (float_lt d (required_diff s)); simpl.
    + intros [= <-]. reflexivity.
    + specialize (IH (S i)).
      destruct (compare_memories img (S i) rest s) as [[r s'] l]. exact IH.
Qed.

Lemma float_lt_mono d r r' :
  float_le r' r = true → float_lt d r = false → float_lt d r' = false.
Proof.
  destruct d as [|x], r as [|q], r' as [|q']; simpl; try congruence.
  unfold Qlt_bool. rewrite !negb_false_iff, !Qle_bool_iff.
  intros H1 H2. exact (Qle_trans _ _ _ H1 H2).
Qed.

(** X13 — the flag the loop computes is what the threshold test says: when
    the loop ends without an exception, [is_different] is true exactly when
    no score is below the threshold; and lowering the threshold never turns
    a true flag into a false one. *)
Theorem flag_follows_threshold img memories s b required' :
  (compare_memories img 0 memories s).1.1 = Ok b →
  b = forallb (different_enough (required_diff s) img) memories
  ∧ (b = true →
     float_le required' (required_diff s) = true →
     (compare_memories img 0 memories (set_required_diff required' s)).1.1
     = Ok true).
Proof.
  intros H. apply compare_memories_flag in H. split; [exact H|].
  intros -> Hle. symmetry in H.
  rewrite compare_memories_all; [reflexivity|]. simpl.
  apply forallb_forall. intros m Hm.
  rewrite forallb_forall in H. specialize (H m Hm).
  unfold different_enough in *.
  destruct (_calculate_image_diff img m) as [d|e]; [|discriminate].
  apply negb_true_iff in H. apply negb_true_iff.
  exact (float_lt_mono d _ _ Hle H).
Qed.

(** ** The metric on images of one shape *)

Lemma same_shape_value a b :
  is_raster a = true → is_raster b = true → shape a = shape b →
  _calculate_image_diff a b
  = Ok (Fl (inject_Z (sum (zip_with (λ x y, Z.abs (x - y)) (data a) (data b)))
            / inject_Z (Z.of_nat (size_of (shape a))) / 255)).
Proof.
  intros Ha Hb Hs.
  destruct (raster_facts a Ha) as (_ & Hla & _ & Hpos).
  destruct (raster_facts b Hb) as (_ & Hlb & _ & _).
  unfold _calculate_image_diff.
  rewrite bool_decide_eq_false_2 by (intros H; apply H; exact Hs).
  rewrite (abs_diff_same_shape a b Hs Hla Hlb).
  set (ds := zip_with (λ x y, Z.abs (x - y)) (data a) (data b)).
  assert (Hlen : length ds = size_of (shape a)).
  { unfold ds. rewrite length_zip_with. rewrite Hla, Hlb, <- Hs. lia. }
  destruct ds as [|d ds'] eqn:E; [simpl in Hlen; lia|].
  unfold mean. cbn [data]. rewrite <- E in *. rewrite Hlen. reflexivity.
Qed.

(** X14 — two 8-bit rasters of the same shape always have a score, without
    resizing, and it lies between 0 and 1. *)
Theorem same_shape_score_in_range a b :
  is_raster a = true → is_raster b = true → shape a = shape b →
  ∃ q, _calculate_image_diff a b = Ok (Fl q) ∧ (0 <= q <= 1)%Q.
Proof.
  intros Ha Hb Hs. exact (same_shape_score a b Ha Hb Hs).
Qed.

Lemma sum_abs_zero xs ys :
  length xs = length ys →
  sum (zip_with (λ x y, Z.abs (x - y)) xs ys) = 0 ↔ xs = ys.
Proof.
  revert ys. induction xs as [|x xs IH]; intros [|y ys] Hlen; simpl in *;
    try discriminate.
  - split; reflexivity.
  - injection Hlen as Hlen. specialize (IH ys Hlen).
    assert (Hnn : 0 ≤ sum (zip_with (λ x y, Z.abs (x - y)) xs ys)).
    { clear. revert ys. induction xs as [|x xs IHx]; intros [|y ys]; simpl;
        try lia. specialize (IHx ys). lia. }
    split.
    + intros H. assert (x = y) by lia.
      assert (Hz : sum (zip_with (λ x y, Z.abs (x - y)) xs ys) = 0) by lia.
      apply IH in Hz. congruence.
    + intros [= -> ->]. destruct IH as [_ IH]. rewrite (IH eq_refl). lia.
Qed.

Lemma mean_zero total n :
  0 < n → (inject_Z total / inject_Z n / 255 == 0)%Q ↔ total = 0.
Proof.
  intros Hn. destruct n as [|p|p]; try lia.
  unfold Qeq, Qdiv, Qmult, Qinv, inject_Z. simpl. lia.
Qed.

(** X15 — for 8-bit rasters of the same shape the score is 0 exactly when
    the two images are the same: an image compared with itself scores 0, and
    two images that differ in any sample score more. *)
Theorem score_zero_iff_identical a b :
  is_raster a = true → is_raster b = true → shape a = shape b →
  ∃ q, _calculate_image_diff a b = Ok (Fl q) ∧ ((q == 0)%Q ↔ a = b).
Proof.
  intros Ha Hb Hs.
  destruct (raster_facts a Ha) as (_ & Hla & _ & Hpos).
  destruct (raster_facts b Hb) as (_ & Hlb & _ & _).
  eexists. split; [exact (same_shape_value a b Ha Hb Hs)|].
  rewrite mean_zero by lia.
  rewrite sum_abs_zero by (rewrite Hla, Hlb, Hs; reflexivity).
  destruct a as [sa da], b as [sb db]. simpl in *.
  split; [intros ->; congruence|intros [= _ ->]; reflexivity].
Qed.





(** X18 — with a positive threshold, submitting again the image that is
    the oldest reference is never a change: its score against itself is 0,
    the loop stops at once, the call returns no detection and the instance
    is unchanged. *)
Theorem resubmitted_reference_is_similar image img rest r s :
  configured s →
  decode (image_data image) = Ok img →
  is_raster img = true →
  image_memories s = img :: rest →
  required_diff s = Fl r →
  (0 < r)%Q →
  ∃ q, (q == 0)%Q
       ∧ get_detections image s
         = (Ok [], s,
            [Difference 0 (Fl q); TooSimilar 0 (Fl q) (Fl r); NotDifferent]).
Proof.
  intros Hc Hdec Hr Hmem Hreq Hpos.
  pose proof (same_shape_value img img Hr Hr eq_refl) as Hv.
  destruct (raster_facts img Hr) as (_ & _ & _ & Hsz).
  set (q := (inject_Z (sum (zip_with (λ x y, Z.abs (x - y))
                             (data img) (data img)))
             / inject_Z (Z.of_nat (size_of (shape img))) / 255)%Q) in *.
  assert (Hq : (q == 0)%Q).
  { apply mean_zero; [lia|]. apply sum_abs_zero; reflexivity. }
  exists q. split; [exact Hq|].
  rewrite (get_detections_decoded image img s Hc Hdec), Hmem.
  pose proof (compare_memories_stop img 0 [] img rest (Fl q) s eq_refl Hv)
    as Hstop.
  change ([] ++ img :: rest) with (img :: rest) in Hstop. rewrite Hstop.
  - rewrite Hreq. reflexivity.
  - rewrite Hreq. simpl. unfold Qlt_bool. apply negb_true_iff.
    destruct (Qle_bool r q) eqn:E; [|reflexivity].
    apply Qle_bool_iff in E. exfalso.
    apply (Qlt_not_le _ _ Hpos). rewrite <- Hq. exact E.
Qed.

(** ** Between reconfigurations *)

Lemma after_keeps_threshold c s :
  is_reconfigure c = false →
  required_diff (after c s) = required_diff s
  ∧ input_camera (after c s) = input_camera s.
Proof.
  intros Hc.
  destruct c as [config dependencies|image|image count|camera_name|command|];
    try discriminate.
  - rewrite after_get_detections.
    destruct (get_detections_memory image s) as [H|[_ [img [_ H]]]];
      rewrite H; auto.
  - rewrite after_get_classifications.
    destruct (get_detections_memory image s) as [H|[_ [img [_ H]]]];
      rewrite H; auto.
  - auto.
  - unfold after, perform, do_command, bind, ret. case_decide; auto.
  - auto.
Qed.

(** X19 — only [reconfigure] touches the threshold and the camera: after
    any sequence of queries and commands, returning or raising, both are
    what they were. *)
Theorem threshold_changes_by_reconfigure_only cs s :
  existsb is_reconfigure cs = false →
  required_diff (run cs s) = required_diff s
  ∧ input_camera (run cs s) = input_camera s.
Proof.
  revert s. induction cs as [|c cs IH]; intros s Hno; simpl.
  - auto.
  - simpl in Hno. apply orb_false_elim in Hno as [Hc Hcs].
    destruct (IH (after c s) Hcs) as [Hr Hi].
    destruct (after_keeps_threshold c s Hc) as [Hr' Hi'].
    split; congruence.
Qed.

(** X20 — the memory only ever holds what was submitted: every image in
    the memory after a sequence of calls was in the memory before, or is
    the decoding of the buffer of one of the queries of the sequence. *)
Theorem memory_holds_submitted_images cs s m :
  m ∈ image_memories (run cs s) →
  m ∈ image_memories s
  ∨ ∃ c image, c ∈ cs ∧ submitted c = Some image
               ∧ decode (image_data image) = Ok m.
Proof.
  revert s. induction cs as [|c cs IH]; intros s Hm; simpl in Hm.
  - left. exact Hm.
  - destruct (IH (after c s) Hm) as [Hin|(c' & image & Hc' & Hs & Hd)].
    + destruct (after_memory c s) as [E|[E|(_ & image & img & Hc & Hd & E)]];
        rewrite E in Hin.
      * left. exact Hin.
      * apply elem_of_nil in Hin. contradiction.
      * apply list_elem_of_singleton in Hin. subst m.
        right. exists c, image. split; [apply list_elem_of_here|].
        split; [|exact Hd].
        destruct Hc as [->|[count ->]]; reflexivity.
    + right. exists c', image. split; [apply list_elem_of_further, Hc'|auto].
Qed.

End Engine.

(** ** The engine at concrete inputs *)

Lemma forallb_repeat {A} (f : A → bool) x n :
  f x = true → forallb f (repeat x n) = true.
Proof. intros H. induction n; simpl; [reflexivity|]. rewrite H. exact IHn. Qed.

(** The stand-in resize meets the contract asked of PIL's. *)
Lemma flat_resize_spec : resize_spec Sample.flat_resize.
Proof.
  intros a w h Ha Hw Hh.
  destruct (raster_facts a Ha) as (_ & _ & Hu & _).
  assert (Hv : is_uint8 (hd 0 (data a)) = true).
  { destruct (data a) as [|x xs]; [reflexivity|].
    simpl in Hu. apply andb_prop in Hu as [Hx _]. exact Hx. }
  apply Nat.ltb_lt in Hw, Hh.
  unfold is_raster in Ha. unfold Sample.flat_resize.
  destruct (shape a) as [|h0 [|w0 [|c [|? ?]]]]; try discriminate;
    rewrite Hw, Hh; simpl; eexists; (split; [reflexivity|]);
    (split; [|reflexivity]); unfold is_raster; simpl;
    rewrite Hw, Hh, repeat_length, Nat.eqb_refl, (forallb_repeat _ _ _ Hv);
    simpl.
  - reflexivity.
  - simpl in Ha. rewrite !andb_true_iff in Ha.
    destruct Ha as [[(_ & _ & Hc & _) _] _]. rewrite Hc. reflexivity.
Qed.

(** [new_vision] on the sample configuration gives the sample service with
    an empty memory. *)
Example new_vision_sample :
  new_vision Sample.attach Sample.config Sample.dependencies
  = Ok (Sample.service []).
Proof. vm_compute. reflexivity. Qed.

Lemma sample_configured memories : configured (Sample.service memories).
Proof. unfold configured. simpl. discriminate. Qed.

(** C3 at the fresh sample service and a 1x1 image of value 7. *)
Lemma first_image_is_stored_witness :
  ∃ detections s',
    get_detections Sample.raw_decode Sample.flat_resize
      (Sample.encoded 7) (Sample.service [])
    = (Ok detections, s', [StoringFirst])
    ∧ detections = []
    ∧ changed detections = false
    ∧ image_memories s' = [Sample.grey 7]
    ∧ required_diff s' = required_diff (Sample.service [])
    ∧ input_camera s' = input_camera (Sample.service []).
Proof.
  apply (first_image_is_stored Sample.raw_decode Sample.flat_resize
           (Sample.encoded 7) (Sample.grey 7) (Sample.service [])).
  - apply sample_configured.
  - reflexivity.
  - vm_compute. reflexivity.
Defined.

(** C6 at a buffer of one byte, with one image in memory. *)
Lemma undecodable_image_raises_witness :
  get_detections Sample.raw_decode Sample.flat_resize
    Sample.garbage (Sample.service [Sample.grey 0])
  = (Raise UnidentifiedImageError, Sample.service [Sample.grey 0], [])
  ∧ get_classifications Sample.raw_decode Sample.flat_resize
      Sample.garbage 1 (Sample.service [Sample.grey 0])
    = (Raise UnidentifiedImageError, Sample.service [Sample.grey 0], []).
Proof.
  apply (undecodable_image_raises Sample.raw_decode Sample.flat_resize
           Sample.garbage 1 UnidentifiedImageError
           (Sample.service [Sample.grey 0])).
  - apply sample_configured.
  - vm_compute. reflexivity.
Defined.

(** C4 with three references: the image of value 3 differs from the first
    (255) and is too close to the second (0); the third (100) is never
    compared. *)
Lemma similar_image_leaves_memory_witness :
  let s := Sample.service [Sample.grey 255; Sample.grey 0; Sample.grey 100] in
  ∃ detections,
    get_detections Sample.raw_decode Sample.flat_resize (Sample.encoded 3) s
    = (Ok detections, s,
       compared Sample.flat_resize (Sample.grey 3) 0 [Sample.grey 255]
       ++ [Difference 1 (Fl (3 / 1 / 255)%Q);
           TooSimilar 1 (Fl (3 / 1 / 255)%Q) (required_diff s);
           NotDifferent])
    ∧ detections = []
    ∧ changed detections = false.
Proof.
  intros s.
  apply (similar_image_leaves_memory Sample.raw_decode Sample.flat_resize
           (Sample.encoded 3) (Sample.grey 3)
           [Sample.grey 255] (Sample.grey 0) [Sample.grey 100]
           (Fl (3 / 1 / 255)%Q) s).
  - apply sample_configured.
  - vm_compute. reflexivity.
  - reflexivity.
  - vm_compute. reflexivity.
  - reflexivity.
  - vm_compute. reflexivity.
Defined.

(** C1 at the failing input: one reference of value 0, an image of value
    255, threshold 0.2.  The score is 1 and the call raises. *)
Lemma different_image_raises_witness :
  get_detections Sample.raw_decode Sample.flat_resize
    (Sample.encoded 255) (Sample.service [Sample.grey 0])
  = (Raise TypeError, Sample.service [Sample.grey 0],
     compared Sample.flat_resize (Sample.grey 255) 0 [Sample.grey 0]).
Proof.
  apply (different_image_raises Sample.raw_decode Sample.flat_resize
           (Sample.encoded 255) (Sample.grey 255)
           (Sample.service [Sample.grey 0])).
  - apply sample_configured.
  - vm_compute. reflexivity.
  - discriminate.
  - vm_compute. reflexivity.
Defined.

(** C5 at a call that returns. *)
Lemma change_is_never_reported_witness :
  (get_detections Sample.raw_decode Sample.flat_resize
     (Sample.encoded 3) (Sample.service [Sample.grey 0])).1.1 = Ok []
  ∧ changed ([] : list detection) = false.
Proof.
  split.
  - vm_compute. reflexivity.
  - apply (change_is_never_reported Sample.raw_decode Sample.flat_resize
             (Sample.encoded 3) (Sample.service [Sample.grey 0]) []).
    vm_compute. reflexivity.
Defined.

(** C10 at a service holding one image. *)
Lemma erasure_clears_and_is_idempotent_witness :
  ∃ status s',
    do_command Sample.erase (Sample.service [Sample.grey 0])
    = (Ok status, s', [])
    ∧ status !! "status" = Some "success"
    ∧ image_memories s' = []
    ∧ required_diff s' = required_diff (Sample.service [Sample.grey 0])
    ∧ input_camera s' = input_camera (Sample.service [Sample.grey 0])
    ∧ name s' = name (Sample.service [Sample.grey 0])
    ∧ do_command Sample.erase s' = (Ok status, s', []).
Proof.
  apply (erasure_clears_and_is_idempotent Sample.erase
           (Sample.service [Sample.grey 0])).
  vm_compute. eexists. reflexivity.
Defined.

(** C2 for the sample attributes, whose capacity is 2, after a
    configuration, images, a command and a call that raises. *)
Lemma memory_within_capacity_witness :
  0 ≤ Z.of_nat (length (image_memories
        (run Sample.raw_decode Sample.flat_resize Sample.attach
           [ Reconfigure Sample.config Sample.dependencies;
             GetDetections (Sample.encoded 0);
             GetClassifications (Sample.encoded 3) 1;
             DoCommand Sample.erase;
             GetDetections (Sample.encoded 9);
             GetDetections (Sample.encoded 255) ]
           (init "diff")))) ≤ 2.
Proof.
  apply (memory_within_capacity Sample.raw_decode Sample.flat_resize
           Sample.attach Sample.attributes ["cam"] 2
           [ Reconfigure Sample.config Sample.dependencies;
             GetDetections (Sample.encoded 0);
             GetClassifications (Sample.encoded 3) 1;
             DoCommand Sample.erase;
             GetDetections (Sample.encoded 9);
             GetDetections (Sample.encoded 255) ] "diff").
  - vm_compute. reflexivity.
  - vm_compute. reflexivity.
Defined.

(** C7 for a configuration, images and a command, which all return. *)
Lemma memory_holds_at_most_one_witness :
  (length (image_memories
     (run Sample.raw_decode Sample.flat_resize Sample.attach
        [ Reconfigure Sample.config Sample.dependencies;
             GetDetections (Sample.encoded 0);
             GetClassifications (Sample.encoded 3) 1;
             DoCommand Sample.erase;
             GetDetections (Sample.encoded 9) ] (init "diff"))) ≤ 1)%nat.
Proof.
  apply (memory_holds_at_most_one Sample.raw_decode Sample.flat_resize
           Sample.attach [ Reconfigure Sample.config Sample.dependencies;
             GetDetections (Sample.encoded 0);
             GetClassifications (Sample.encoded 3) 1;
             DoCommand Sample.erase;
             GetDetections (Sample.encoded 9) ] "diff").
  vm_compute. reflexivity.
Defined.

(** C8 at two 1x1 images. *)
Lemma difference_is_symmetric_witness :
  _calculate_image_diff Sample.flat_resize (Sample.grey 0) (Sample.grey 255)
  = _calculate_image_diff Sample.flat_resize (Sample.grey 255) (Sample.grey 0).
Proof.
  apply (difference_is_symmetric Sample.flat_resize
           (Sample.grey 0) (Sample.grey 255)).
  reflexivity.
Defined.

(** C9 (amended) at a 2x2 and a 1x2 grey image. *)
Lemma mismatched_sizes_score_witness :
  ∃ q, _calculate_image_diff Sample.flat_resize Sample.wide Sample.narrow
       = Ok (Fl q) ∧ (0 <= q <= 1)%Q.
Proof.
  apply (mismatched_sizes_score Sample.flat_resize Sample.wide Sample.narrow
           2 2 1 2 []).
  - exact flat_resize_spec.
  - reflexivity.
  - reflexivity.
  - reflexivity.
  - reflexivity.
  - discriminate.
Defined.

(** C9 as stated fails: a 4x4 image with three channels and a 2x2 grey
    image are 8-bit rasters of different pixel dimensions, and their
    comparison raises.  The larger one is resized to (2, 2, 3), which numpy
    cannot broadcast against (2, 2); [channel_mismatch_raises] shows that
    this holds for every resize that keeps the channels. *)
Lemma mismatched_channels_raise :
  resize_spec Sample.flat_resize
  ∧ is_raster Sample.rgb4 = true
  ∧ is_raster Sample.grey2 = true
  ∧ shape Sample.rgb4 = [4; 4; 3]%nat
  ∧ shape Sample.grey2 = [2; 2]%nat
  ∧ _calculate_image_diff Sample.flat_resize Sample.rgb4 Sample.grey2
    = Raise ValueError.
Proof.
  split; [exact flat_resize_spec|].
  repeat split; vm_compute; reflexivity.
Qed.

(** ** Further facts at concrete inputs *)

(** X2 with no dependencies at all. *)
Lemma reconfigure_failure_keeps_instance_witness :
  reconfigure Sample.attach Sample.config ∅ (Sample.service [Sample.grey 0])
  = (Raise ValueError, Sample.service [Sample.grey 0], []).
Proof.
  apply (reconfigure_failure_keeps_instance Sample.attach Sample.config ∅
           (Sample.service [Sample.grey 0]) ValueError).
  vm_compute. reflexivity.
Defined.

(** X3 on a service holding an image, against a new instance of that name. *)
Lemma reconfigure_is_hard_reset_witness :
  reconfigure Sample.attach Sample.config Sample.dependencies (init "diff")
  = reconfigure Sample.attach Sample.config Sample.dependencies
      (Sample.service [Sample.grey 0]).
Proof.
  apply (reconfigure_is_hard_reset Sample.attach Sample.config
           Sample.dependencies (Sample.service [Sample.grey 0]) (init "diff")).
  - vm_compute. reflexivity.
  - reflexivity.
Defined.

(** X7 on a new instance and a buffer that is no image. *)
Lemma no_camera_raises_witness :
  get_detections Sample.raw_decode Sample.flat_resize Sample.garbage
    (init "diff")
  = (Raise RuntimeError, init "diff", []).
Proof.
  apply (no_camera_raises Sample.raw_decode Sample.flat_resize
           Sample.garbage 1 (init "diff")).
  reflexivity.
Defined.

(** X9 with one stored image and four queries. *)
Lemma reference_is_frozen_witness :
  run Sample.raw_decode Sample.flat_resize Sample.attach
    [ GetDetections (Sample.encoded 255);
      GetClassifications Sample.garbage 1;
      GetGeometries;
      GetDetections (Sample.encoded 0) ]
    (Sample.service [Sample.grey 0])
  = Sample.service [Sample.grey 0].
Proof.
  apply (reference_is_frozen Sample.raw_decode Sample.flat_resize
           Sample.attach).
  - discriminate.
  - reflexivity.
Defined.

(** X10 with an empty command. *)
Lemma unknown_command_is_harmless_witness :
  ∃ status,
    do_command ∅ (Sample.service [Sample.grey 0])
    = (Ok status, Sample.service [Sample.grey 0], [])
    ∧ status !! "status" = Some "error"
    ∧ status !! "message" = Some "Unknown command".
Proof.
  apply (unknown_command_is_harmless ∅ (Sample.service [Sample.grey 0])).
  reflexivity.
Defined.

(** X11 at a call that returns. *)
Lemma returning_call_keeps_reference_witness :
  image_memories
    (get_detections Sample.raw_decode Sample.flat_resize
       (Sample.encoded 3) (Sample.service [Sample.grey 0])).1.2 ≠ [].
Proof.
  apply (returning_call_keeps_reference Sample.raw_decode Sample.flat_resize
           (Sample.encoded 3) (Sample.service [Sample.grey 0]) []).
  vm_compute. reflexivity.
Defined.

(** X12 on a service that held another image. *)
Lemma erase_then_evaluate_bootstraps_witness :
  get_detections Sample.raw_decode Sample.flat_resize (Sample.encoded 7)
    (after Sample.raw_decode Sample.flat_resize Sample.attach
       (DoCommand Sample.erase) (Sample.service [Sample.grey 0]))
  = (Ok [], Sample.service [Sample.grey 7], [StoringFirst]).
Proof.
  apply (erase_then_evaluate_bootstraps Sample.raw_decode Sample.flat_resize
           Sample.attach Sample.erase (Sample.encoded 7) (Sample.grey 7)
           (Sample.service [Sample.grey 0])).
  - apply sample_configured.
  - vm_compute. eexists. reflexivity.
  - vm_compute. reflexivity.
Defined.

(** X13 for a score of 1 against thresholds 0.2 and 0.1. *)
Lemma flag_follows_threshold_witness :
  (compare_memories Sample.flat_resize (Sample.grey 255) 0 [Sample.grey 0]
     (set_required_diff (Fl (1 # 10)) (Sample.service []))).1.1
  = Ok true.
Proof.
  apply (flag_follows_threshold Sample.flat_resize (Sample.grey 255)
           [Sample.grey 0] (Sample.service []) true (Fl (1 # 10))).
  - vm_compute. reflexivity.
  - reflexivity.
  - reflexivity.
Defined.

(** X14 at two 2x2 images. *)
Lemma same_shape_score_in_range_witness :
  ∃ q, _calculate_image_diff Sample.flat_resize Sample.wide Sample.grey2
       = Ok (Fl q) ∧ (0 <= q <= 1)%Q.
Proof.
  apply (same_shape_score_in_range Sample.flat_resize Sample.wide Sample.grey2);
    reflexivity.
Defined.

(** X15 at two 2x2 images. *)
Lemma score_zero_iff_identical_witness :
  ∃ q, _calculate_image_diff Sample.flat_resize Sample.wide Sample.grey2
       = Ok (Fl q) ∧ ((q == 0)%Q ↔ Sample.wide = Sample.grey2).
Proof.
  apply (score_zero_iff_identical Sample.flat_resize Sample.wide Sample.grey2);
    reflexivity.
Defined.



(** X18 at the image of value 7, stored and submitted again. *)
Lemma resubmitted_reference_is_similar_witness :
  ∃ q, (q == 0)%Q
       ∧ get_detections Sample.raw_decode Sample.flat_resize
           (Sample.encoded 7) (Sample.service [Sample.grey 7])
         = (Ok [], Sample.service [Sample.grey 7],
            [Difference 0 (Fl q); TooSimilar 0 (Fl q) (Fl (2 # 10));
             NotDifferent]).
Proof.
  apply (resubmitted_reference_is_similar Sample.raw_decode Sample.flat_resize
           (Sample.encoded 7) (Sample.grey 7) [] (2 # 10)
           (Sample.service [Sample.grey 7])).
  - apply sample_configured.
  - vm_compute. reflexivity.
  - reflexivity.
  - reflexivity.
  - reflexivity.
  - reflexivity.
Defined.

(** X19 for two queries and an erase command. *)
Lemma threshold_changes_by_reconfigure_only_witness :
  required_diff
    (run Sample.raw_decode Sample.flat_resize Sample.attach
       [ GetDetections (Sample.encoded 255); DoCommand Sample.erase;
         GetDetections (Sample.encoded 9) ]
       (Sample.service [Sample.grey 0]))
  = Fl (2 # 10).
Proof.
  apply (threshold_changes_by_reconfigure_only Sample.raw_decode
           Sample.flat_resize Sample.attach
           [ GetDetections (Sample.encoded 255); DoCommand Sample.erase;
             GetDetections (Sample.encoded 9) ]
           (Sample.service [Sample.grey 0])).
  reflexivity.
Defined.

(** X20 for an erase command followed by an image. *)
Lemma memory_holds_submitted_images_witness :
  Sample.grey 9 ∈ image_memories (Sample.service [Sample.grey 0])
  ∨ ∃ c image,
      c ∈ [ DoCommand Sample.erase; GetDetections (Sample.encoded 9) ]
      ∧ submitted c = Some image
      ∧ Sample.raw_decode (image_data image) = Ok (Sample.grey 9).
Proof.
  apply (memory_holds_submitted_images Sample.raw_decode Sample.flat_resize
           Sample.attach
           [ DoCommand Sample.erase; GetDetections (Sample.encoded 9) ]
           (Sample.service [Sample.grey 0]) (Sample.grey 9)).
  vm_compute. apply list_elem_of_here.
Defined.
